(** * The exception-to-result wrappers of [src/wrapper/mupdf.c]

    The file instantiates one macro, [WRAP], six times.  Every instance is
    a C function [mp_<name>] that calls one function of the MuPDF library
    inside an [fz_try]/[fz_catch] region and turns an exception of the
    library into a failure value.

    The library itself (its functions and the [fz_try]/[fz_catch] macros of
    [mupdf/fitz.h]) is not part of the repository.  Its functions are a
    parameter of the development; the error-handling region is modelled
    from the specification. *)

From Stdlib Require Import ZArith List String Bool Lia.
Import ListNotations.
Open Scope Z_scope.

(** ** C data *)

(** The struct types behind the pointers that cross this layer. *)
Inductive ctype : Type :=
| t_fz_context
| t_fz_document
| t_fz_page
| t_fz_outline
| t_fz_stext_page
| t_fz_stext_options
| t_fz_stream
| t_char.

(** A C pointer to a [t]: the null pointer or the address of an object.
    All handles are opaque here, the wrappers never look behind one. *)
Inductive ptr (t : ctype) : Type :=
| NULL
| Addr (a : positive).

Arguments NULL {t}.
Arguments Addr {t} a.

(** C [int].  The wrappers do no arithmetic on it, so no wrap-around is
    involved: a value is only handed from the library to the caller. *)
Definition int : Type := Z.

(** What the library attaches to an exception: an error code and a
    message. *)
Record fz_error : Type := mk_fz_error {
  errcode : int;
  message : string
}.

(** How a C call ends: it returns a value, or it leaves by the library's
    non-local exit carrying an error. *)
Inductive outcome (A : Type) : Type :=
| Returned (v : A)
| Raised (e : fz_error).

Arguments Returned {A} v.
Arguments Raised {A} e.

(** ** The library functions the wrappers call

    One constructor per function, with the arguments in the order of the C
    call and indexed by the C return type. *)
Inductive fz_call : Type -> Type :=
| fz_open_document (ctx : ptr t_fz_context) (path : ptr t_char)
    : fz_call (ptr t_fz_document)
| fz_open_document_with_stream (ctx : ptr t_fz_context) (kind : ptr t_char)
    (stream : ptr t_fz_stream)
    : fz_call (ptr t_fz_document)
| fz_load_page (ctx : ptr t_fz_context) (doc : ptr t_fz_document)
    (pageno : int)
    : fz_call (ptr t_fz_page)
| fz_load_outline (ctx : ptr t_fz_context) (doc : ptr t_fz_document)
    : fz_call (ptr t_fz_outline)
| fz_count_pages (ctx : ptr t_fz_context) (doc : ptr t_fz_document)
    : fz_call int
| fz_new_stext_page_from_page (ctx : ptr t_fz_context) (page : ptr t_fz_page)
    (options : ptr t_fz_stext_options)
    : fz_call (ptr t_fz_stext_page).

(** A call with its return type packed, as it is written to the call log. *)
Definition logged_call : Type := { R : Type & fz_call R }.

Definition log_entry {R : Type} (c : fz_call R) : logged_call :=
  existT fz_call R c.

(** The library over its own, opaque state [world] (documents, files,
    allocator, the error message of the context): a call at a state
    returns or raises, and leaves a state. *)
Definition fitz (world : Type) : Type :=
  forall R : Type, fz_call R -> world -> outcome R * world.

(** ** The machine the wrappers run on *)

(** [lib_state] belongs to the library.  [regions] is the stack of open
    error-handling regions, each bound to the context it was entered on.
    [calls] is a ghost log of the library calls made so far, oldest first. *)
Record machine (world : Type) : Type := mk_machine {
  lib_state : world;
  regions : list (ptr t_fz_context);
  calls : list logged_call
}.

Arguments mk_machine {world} _ _ _.
Arguments lib_state {world} _.
Arguments regions {world} _.
Arguments calls {world} _.

(** The locals of a wrapper body: the one variable [ret].  [None] is a
    variable that holds no determinate value. *)
Record frame (R : Type) : Type := mk_frame {
  ret : option R
}.

Arguments mk_frame {R} _.
Arguments ret {R} _.

(** How a statement ends: control falls through to the next statement, or
    an exception is unwinding. *)
Inductive completion : Type :=
| Fallthrough
| Unwinding (e : fz_error).

Section Wrapper.

Context {world : Type}.
Variable L : fitz world.

(** An expression evaluated for an [R]. *)
Definition expr (R : Type) : Type :=
  machine world -> outcome R * machine world.

(** A statement of a function whose locals are a [frame R]. *)
Definition stmt (R : Type) : Type :=
  frame R -> machine world -> completion * frame R * machine world.

(** A call of a library function: the library runs on its own state and
    the call is logged. *)
Definition perform {R : Type} (c : fz_call R) : expr R :=
  fun m =>
    let (o, w) := L R c (lib_state m) in
    (o, mk_machine w (regions m) (calls m ++ [log_entry c])).

(** A constant expression, such as [NULL] or [-1]. *)
Definition const {R : Type} (v : R) : expr R :=
  fun m => (Returned v, m).

(** [ret = e;] : when [e] raises, the assignment does not happen. *)
Definition assign_ret {R : Type} (e : expr R) : stmt R :=
  fun fr m =>
    match e m with
    | (Returned v, m') => (Fallthrough, mk_frame (Some v), m')
    | (Raised err, m') => (Unwinding err, fr, m')
    end.

Definition push_region (ctx : ptr t_fz_context) (m : machine world)
  : machine world :=
  mk_machine (lib_state m) (ctx :: regions m) (calls m).

Definition pop_region (m : machine world) : machine world :=
  mk_machine (lib_state m) (tl (regions m)) (calls m).

(** Modelled from the spec: the [fz_try (ctx) { body } fz_catch (ctx)
    { handler }] macros of [mupdf/fitz.h], which the repository only
    includes.  The region is entered on [ctx]; an exception raised in
    [body] is intercepted, the region is left on both paths, and on the
    exception path [handler] runs with the partial result discarded: the
    locals written in [body] hold no determinate value after the
    non-local jump.  The intercepted error is not handed to [handler]. *)
Definition fz_try_catch {R : Type} (ctx : ptr t_fz_context)
    (body handler : stmt R) : stmt R :=
  fun fr m =>
    match body fr (push_region ctx m) with
    | (Fallthrough, fr', m') => (Fallthrough, fr', pop_region m')
    | (Unwinding _, _, m') => handler (mk_frame None) (pop_region m')
    end.

(** The macro
<<
    #define WRAP(name, ret_type, failure_val, call, ...)
        ret_type mp_##name(fz_context *ctx, ##__VA_ARGS__) {
            ret_type ret;
            fz_try (ctx) { ret = call; }
            fz_catch (ctx) { ret = failure_val; }
            return ret;
        }
>>
    [ret] is declared without initialiser, so the frame starts at [None];
    [return ret;] hands out whatever [ret] holds.  A function whose body
    is left by an exception ends in [Raised]. *)
Definition WRAP {ret_type : Type} (failure_val : ret_type)
    (ctx : ptr t_fz_context) (call : fz_call ret_type)
  : expr (option ret_type) :=
  fun m =>
    match
      fz_try_catch ctx
        (assign_ret (perform call))
        (assign_ret (const failure_val))
        (mk_frame None) m
    with
    | (Fallthrough, fr, m') => (Returned (ret fr), m')
    | (Unwinding e, _, m') => (Raised e, m')
    end.

(** The six instances, in the order of the file. *)

Definition mp_open_document (ctx : ptr t_fz_context) (path : ptr t_char)
  : expr (option (ptr t_fz_document)) :=
  WRAP NULL ctx (fz_open_document ctx path).

Definition mp_open_document_with_stream (ctx : ptr t_fz_context)
    (kind : ptr t_char) (stream : ptr t_fz_stream)
  : expr (option (ptr t_fz_document)) :=
  WRAP NULL ctx (fz_open_document_with_stream ctx kind stream).

Definition mp_load_page (ctx : ptr t_fz_context) (doc : ptr t_fz_document)
    (pageno : int)
  : expr (option (ptr t_fz_page)) :=
  WRAP NULL ctx (fz_load_page ctx doc pageno).

Definition mp_load_outline (ctx : ptr t_fz_context)
    (doc : ptr t_fz_document)
  : expr (option (ptr t_fz_outline)) :=
  WRAP NULL ctx (fz_load_outline ctx doc).

Definition mp_count_pages (ctx : ptr t_fz_context)
    (doc : ptr t_fz_document)
  : expr (option int) :=
  WRAP (-1) ctx (fz_count_pages ctx doc).

Definition mp_new_stext_page_from_page (ctx : ptr t_fz_context)
    (page : ptr t_fz_page) (options : ptr t_fz_stext_options)
  : expr (option (ptr t_fz_stext_page)) :=
  WRAP NULL ctx (fz_new_stext_page_from_page ctx page options).

(** The wrapper of a library call: the [mp_] function of the same name,
    applied to the same arguments. *)
Definition wrapper {R : Type} (c : fz_call R) : expr (option R) :=
  match c in fz_call T return expr (option T) with
  | fz_open_document ctx path =>
      mp_open_document ctx path
  | fz_open_document_with_stream ctx kind stream =>
      mp_open_document_with_stream ctx kind stream
  | fz_load_page ctx doc pageno =>
      mp_load_page ctx doc pageno
  | fz_load_outline ctx doc =>
      mp_load_outline ctx doc
  | fz_count_pages ctx doc =>
      mp_count_pages ctx doc
  | fz_new_stext_page_from_page ctx page options =>
      mp_new_stext_page_from_page ctx page options
  end.

End Wrapper.

(** ** The contract table of the specification *)

(** The failure sentinel the specification designates for each operation:
    the null handle for the five operations that return a handle, [-1] for
    the page count. *)
Definition designated_sentinel {R : Type} (c : fz_call R) : R :=
  match c in fz_call T return T with
  | fz_open_document _ _ => NULL
  | fz_open_document_with_stream _ _ _ => NULL
  | fz_load_page _ _ _ => NULL
  | fz_load_outline _ _ => NULL
  | fz_count_pages _ _ => -1
  | fz_new_stext_page_from_page _ _ _ => NULL
  end.

(** The value a wrapper with failure value [fv] makes of an outcome of the
    library call. *)
Definition value_or {R : Type} (fv : R) (o : outcome R) : R :=
  match o with
  | Returned v => v
  | Raised _ => fv
  end.

(** ** Callers

    The repository has no caller of its own; the functions are exported to
    a foreign caller.  A caller that makes the calls [cs] one after
    another, through the wrappers, is unwound itself as soon as one of
    them is left by an exception. *)

Section Callers.

Context {world : Type}.
Variable L : fitz world.

Fixpoint run_calls (cs : list logged_call) (m : machine world)
  : outcome unit * machine world :=
  match cs with
  | [] => (Returned tt, m)
  | existT _ R c :: cs' =>
      match wrapper L c m with
      | (Returned _, m') => run_calls cs' m'
      | (Raised e, m') => (Raised e, m')
      end
  end.

(** The library state after the calls [cs], raising or not, made on the
    library directly. *)
Fixpoint lib_after (cs : list logged_call) (w : world) : world :=
  match cs with
  | [] => w
  | existT _ R c :: cs' => lib_after cs' (snd (L R c w))
  end.

End Callers.

(** ** A small library instance

    An instance of [fitz] to run the wrappers on: a library that knows one
    document.  It serves the concrete runs below; no general statement
    depends on it. *)

(** [page_count] is the count recorded in the document, taken as it is
    found; [damaged] is a document that cannot be read at all; [opened]
    counts the documents handed out. *)
Record sample_world : Type := mk_sample_world {
  page_count : int;
  damaged : bool;
  opened : nat
}.

Definition err_cannot_open : fz_error := mk_fz_error 2 "cannot open document".
Definition err_syntax : fz_error := mk_fz_error 7 "syntax error in document".
Definition err_no_page : fz_error := mk_fz_error 4 "page number out of range".

Definition sample_fitz : fitz sample_world :=
  fun R c w =>
    match c in fz_call T return outcome T * sample_world with
    | fz_open_document _ path =>
        match path with
        | NULL => (Raised err_cannot_open, w)
        | Addr _ =>
            if damaged w then (Raised err_syntax, w)
            else (Returned (Addr 1),
                  mk_sample_world (page_count w) (damaged w) (S (opened w)))
        end
    | fz_open_document_with_stream _ _ stream =>
        match stream with
        | NULL => (Raised err_cannot_open, w)
        | Addr _ =>
            if damaged w then (Raised err_syntax, w)
            else (Returned (Addr 1),
                  mk_sample_world (page_count w) (damaged w) (S (opened w)))
        end
    | fz_load_page _ _ pageno =>
        if damaged w then (Raised err_syntax, w)
        else if (0 <=? pageno) && (pageno <? page_count w)
             then (Returned (Addr (Z.to_pos (pageno + 1))), w)
             else (Raised err_no_page, w)
    | fz_load_outline _ _ =>
        (* a document without bookmarks has a null outline *)
        if damaged w then (Raised err_syntax, w) else (Returned NULL, w)
    | fz_count_pages _ doc =>
        match doc with
        | NULL => (Returned 0, w)
        | Addr _ =>
            if damaged w then (Raised err_syntax, w)
            else (Returned (page_count w), w)
        end
    | fz_new_stext_page_from_page _ page _ =>
        match page with
        | NULL => (Raised err_no_page, w)
        | Addr a => (Returned (Addr a), w)
        end
    end.

(** A machine with no region open and an empty call log. *)
Definition boot {world : Type} (w : world) : machine world :=
  mk_machine w [] [].

(** Three documents: a sound one of three pages, an unreadable one, and a
    readable one whose recorded page count is [-1]. *)
Definition three_pages : sample_world := mk_sample_world 3 false 0.
Definition unreadable : sample_world := mk_sample_world 3 true 0.
Definition miscounted : sample_world := mk_sample_world (-1) false 0.

Definition ctx1 : ptr t_fz_context := Addr 1.
Definition doc1 : ptr t_fz_document := Addr 1.

(** ** Running the wrappers *)

Section Runs.

Context {world : Type}.
Variable L : fitz world.

(** One run of [WRAP], whatever the call does. *)
Lemma WRAP_run {R : Type} (fv : R) (ctx : ptr t_fz_context)
    (c : fz_call R) (m : machine world) :
  WRAP L fv ctx c m =
    (Returned (Some (value_or fv (fst (L R c (lib_state m))))),
     mk_machine (snd (L R c (lib_state m))) (regions m)
       (calls m ++ [log_entry c])).
Proof.
  unfold WRAP, fz_try_catch, assign_ret, perform, const, push_region,
    pop_region; cbn.
  destruct (L R c (lib_state m)) as [[v | e] w]; reflexivity.
Qed.

(** One run of the wrapper of [c]. *)
Lemma wrapper_run {R : Type} (c : fz_call R) (m : machine world) :
  wrapper L c m =
    (Returned
       (Some (value_or (designated_sentinel c) (fst (L R c (lib_state m))))),
     mk_machine (snd (L R c (lib_state m))) (regions m)
       (calls m ++ [log_entry c])).
Proof.
  destruct c; cbn [wrapper designated_sentinel];
    unfold mp_open_document, mp_open_document_with_stream, mp_load_page,
      mp_load_outline, mp_count_pages, mp_new_stext_page_from_page;
    apply WRAP_run.
Qed.

Lemma wrapper_returned {R : Type} (c : fz_call R) (m : machine world)
    (v : R) (w : world) :
  L R c (lib_state m) = (Returned v, w) ->
  fst (wrapper L c m) = Returned (Some v).
Proof. intros H. rewrite wrapper_run, H. reflexivity. Qed.

Lemma wrapper_raised {R : Type} (c : fz_call R) (m : machine world)
    (e : fz_error) (w : world) :
  L R c (lib_state m) = (Raised e, w) ->
  fst (wrapper L c m) = Returned (Some (designated_sentinel c)).
Proof. intros H. rewrite wrapper_run, H. reflexivity. Qed.

End Runs.

(** Concrete runs on the sample library. *)

Example run_open_missing :
  mp_open_document sample_fitz ctx1 NULL (boot three_pages) =
    (Returned (Some NULL),
     mk_machine three_pages [] [log_entry (fz_open_document ctx1 NULL)]).
Proof. reflexivity. Qed.

Example run_open_sound :
  mp_open_document sample_fitz ctx1 (Addr 5) (boot three_pages) =
    (Returned (Some (Addr 1)),
     mk_machine (mk_sample_world 3 false 1) []
       [log_entry (fz_open_document ctx1 (Addr 5))]).
Proof. reflexivity. Qed.

Example run_load_page_out_of_range :
  fst (mp_load_page sample_fitz ctx1 doc1 3 (boot three_pages)) =
    Returned (Some NULL).
Proof. reflexivity. Qed.

Example run_load_page_negative_index :
  fst (mp_load_page sample_fitz ctx1 NULL (-4) (boot three_pages)) =
    Returned (Some NULL).
Proof. reflexivity. Qed.

Example run_load_first_page :
  fst (mp_load_page sample_fitz ctx1 doc1 0 (boot three_pages)) =
    Returned (Some (Addr 1)).
Proof. reflexivity. Qed.

Example run_count_sound :
  fst (mp_count_pages sample_fitz ctx1 doc1 (boot three_pages)) =
    Returned (Some 3).
Proof. reflexivity. Qed.

Example run_count_unreadable :
  fst (mp_count_pages sample_fitz ctx1 doc1 (boot unreadable)) =
    Returned (Some (-1)).
Proof. reflexivity. Qed.

(** ** The properties of the wrappers *)

(** C1.  For every wrapped operation and every input: when the library
    call raises, the wrapper returns normally, and what it returns is the
    sentinel the specification designates for the operation.  The
    exception does not leave the wrapper: the call ends in [Returned],
    never in [Raised], and the region entered for it is closed again. *)
Theorem exception_becomes_sentinel :
  forall (world : Type) (L : fitz world) (R : Type) (c : fz_call R)
         (m : machine world) (e : fz_error) (w : world),
    L R c (lib_state m) = (Raised e, w) ->
    fst (wrapper L c m) = Returned (Some (designated_sentinel c)) /\
    (forall e' : fz_error, fst (wrapper L c m) <> Raised e') /\
    regions (snd (wrapper L c m)) = regions m.
Proof.
  intros world L R c m e w H.
  rewrite wrapper_run, H; cbn.
  repeat split. intros e'; discriminate.
Qed.

Lemma exception_becomes_sentinel_witness :
  sample_fitz _ (fz_load_page ctx1 doc1 9) (lib_state (boot three_pages)) =
    (Raised err_no_page, three_pages) /\
  fst (wrapper sample_fitz (fz_load_page ctx1 doc1 9) (boot three_pages)) =
    Returned (Some NULL).
Proof.
  split; [reflexivity|].
  refine (proj1 (exception_becomes_sentinel sample_world sample_fitz _
                   (fz_load_page ctx1 doc1 9) (boot three_pages)
                   err_no_page three_pages _)).
  reflexivity.
Defined.

(** C2.  For every wrapped operation and every input: when the library
    call completes normally with the value [v], the wrapper returns
    exactly [v]. *)
Theorem success_value_unchanged :
  forall (world : Type) (L : fitz world) (R : Type) (c : fz_call R)
         (m : machine world) (v : R) (w : world),
    L R c (lib_state m) = (Returned v, w) ->
    fst (wrapper L c m) = Returned (Some v).
Proof.
  intros world L R c m v w H. exact (wrapper_returned L c m v w H).
Qed.

Lemma success_value_unchanged_witness :
  sample_fitz _ (fz_load_page ctx1 doc1 2) (lib_state (boot three_pages)) =
    (Returned (Addr 3), three_pages) /\
  fst (wrapper sample_fitz (fz_load_page ctx1 doc1 2) (boot three_pages)) =
    Returned (Some (Addr 3)).
Proof.
  split; [reflexivity|].
  apply (success_value_unchanged sample_world sample_fitz _
           (fz_load_page ctx1 doc1 2) (boot three_pages)
           (Addr 3) three_pages).
  reflexivity.
Defined.

(** C3.  The failure value of each operation: on the exception path the
    five operations that return a pointer return the null pointer, and
    [mp_count_pages] returns the integer [-1], which is neither [0] nor
    another negative number. *)
Theorem sentinels_type_correct :
  forall (world : Type) (L : fitz world) (m : machine world)
         (e : fz_error) (w : world),
    (forall ctx path,
        L _ (fz_open_document ctx path) (lib_state m) = (Raised e, w) ->
        fst (mp_open_document L ctx path m) = Returned (Some NULL)) /\
    (forall ctx kind stream,
        L _ (fz_open_document_with_stream ctx kind stream) (lib_state m) =
          (Raised e, w) ->
        fst (mp_open_document_with_stream L ctx kind stream m) =
          Returned (Some NULL)) /\
    (forall ctx doc pageno,
        L _ (fz_load_page ctx doc pageno) (lib_state m) = (Raised e, w) ->
        fst (mp_load_page L ctx doc pageno m) = Returned (Some NULL)) /\
    (forall ctx doc,
        L _ (fz_load_outline ctx doc) (lib_state m) = (Raised e, w) ->
        fst (mp_load_outline L ctx doc m) = Returned (Some NULL)) /\
    (forall ctx page options,
        L _ (fz_new_stext_page_from_page ctx page options) (lib_state m) =
          (Raised e, w) ->
        fst (mp_new_stext_page_from_page L ctx page options m) =
          Returned (Some NULL)) /\
    (forall ctx doc,
        L _ (fz_count_pages ctx doc) (lib_state m) = (Raised e, w) ->
        fst (mp_count_pages L ctx doc m) = Returned (Some (-1)) /\
        fst (mp_count_pages L ctx doc m) <> Returned (Some 0) /\
        (forall z : int, z < 0 -> z <> -1 ->
           fst (mp_count_pages L ctx doc m) <> Returned (Some z))).
Proof.
  intros world L m e w.
  repeat split; intros;
    repeat match goal with
      | H : L _ ?c (lib_state m) = (Raised _, _) |- _ =>
          pose proof (wrapper_raised L c m _ _ H) as Hrun; clear H
      end;
    cbn [wrapper designated_sentinel] in Hrun.
  1-6: exact Hrun.
  - rewrite Hrun. discriminate.
  - rewrite Hrun. intros Heq. injection Heq as Heq. lia.
Qed.

Lemma sentinels_type_correct_witness :
  fst (mp_open_document sample_fitz ctx1 (Addr 5) (boot unreadable)) =
    Returned (Some NULL) /\
  fst (mp_count_pages sample_fitz ctx1 doc1 (boot unreadable)) =
    Returned (Some (-1)).
Proof.
  destruct (sentinels_type_correct sample_world sample_fitz
              (boot unreadable) err_syntax unreadable)
    as (Hopen & _ & _ & _ & _ & Hcount).
  split.
  - apply Hopen. reflexivity.
  - apply Hcount. reflexivity.
Defined.

(** C4, as the code has it.  [mp_count_pages] hands out the library's
    count as it is: when the library call succeeds with [v], whatever [v]
    is, the wrapper returns [v] unchanged, so the result is non-negative
    whenever the library's own count is.  The wrapper returns [-1]
    exactly when the call fails or the library itself returns [-1]. *)
Theorem mp_count_pages_forwards_count :
  forall (world : Type) (L : fitz world) (ctx : ptr t_fz_context)
         (doc : ptr t_fz_document) (m : machine world),
    (forall (v : int) (w : world),
        L _ (fz_count_pages ctx doc) (lib_state m) = (Returned v, w) ->
        fst (mp_count_pages L ctx doc m) = Returned (Some v) /\
        (0 <= v ->
         exists n : int,
           fst (mp_count_pages L ctx doc m) = Returned (Some n) /\
           0 <= n)) /\
    (fst (mp_count_pages L ctx doc m) = Returned (Some (-1)) <->
     (exists e w,
         L _ (fz_count_pages ctx doc) (lib_state m) = (Raised e, w)) \/
     (exists w,
         L _ (fz_count_pages ctx doc) (lib_state m) = (Returned (-1), w))).
Proof.
  intros world L ctx doc m.
  change (mp_count_pages L ctx doc) with (wrapper L (fz_count_pages ctx doc)).
  rewrite wrapper_run; cbn [designated_sentinel fst].
  destruct (L int (fz_count_pages ctx doc) (lib_state m)) as [[v | e] w];
    cbn [fst value_or].
  - split.
    + intros v' w' Heq. injection Heq as <- <-.
      split; [reflexivity|].
      intros Hnonneg. exists v. split; [reflexivity | exact Hnonneg].
    + split.
      * intros Heq. injection Heq as ->. right. exists w. reflexivity.
      * intros [(e & w' & Hraised) | (w' & Hret)]; [discriminate|].
        injection Hret as -> _. reflexivity.
  - split.
    + intros v w' Heq. discriminate.
    + split; [|reflexivity].
      intros _. left. exists e, w. reflexivity.
Qed.

Lemma mp_count_pages_forwards_count_witness :
  (sample_fitz _ (fz_count_pages ctx1 doc1) (lib_state (boot three_pages)) =
     (Returned 3, three_pages) /\
   fst (mp_count_pages sample_fitz ctx1 doc1 (boot three_pages)) =
     Returned (Some 3)) /\
  (sample_fitz _ (fz_count_pages ctx1 doc1)
     (lib_state (boot (mk_sample_world (-2) false 0))) =
     (Returned (-2), mk_sample_world (-2) false 0) /\
   fst (mp_count_pages sample_fitz ctx1 doc1
          (boot (mk_sample_world (-2) false 0))) =
     Returned (Some (-2))).
Proof.
  split.
  - split; [reflexivity|].
    refine (proj1 (proj1 (mp_count_pages_forwards_count sample_world
                            sample_fitz ctx1 doc1 (boot three_pages))
                     3 three_pages _)).
    reflexivity.
  - split; [reflexivity|].
    refine (proj1 (proj1 (mp_count_pages_forwards_count sample_world
                            sample_fitz ctx1 doc1
                            (boot (mk_sample_world (-2) false 0)))
                     (-2) (mk_sample_world (-2) false 0) _)).
    reflexivity.
Defined.

(** C4, as the claim states it, fails where the library's own count is
    negative: on the document whose recorded count is [-1] the library
    call succeeds, and [mp_count_pages] returns [-1], so no non-negative
    integer is returned and [-1] is returned although nothing failed. *)
Lemma mp_count_pages_negative_on_success :
  sample_fitz _ (fz_count_pages ctx1 doc1) (lib_state (boot miscounted)) =
    (Returned (-1), miscounted) /\
  fst (mp_count_pages sample_fitz ctx1 doc1 (boot miscounted)) =
    Returned (Some (-1)) /\
  ~ (exists n : int,
        fst (mp_count_pages sample_fitz ctx1 doc1 (boot miscounted)) =
          Returned (Some n) /\
        0 <= n) /\
  ~ (exists e w,
        sample_fitz _ (fz_count_pages ctx1 doc1)
          (lib_state (boot miscounted)) = (Raised e, w)).
Proof.
  split; [reflexivity|]. split; [reflexivity|]. split.
  - intros (n & Hn & Hnonneg). cbn in Hn. injection Hn as <-. lia.
  - intros (e & w & H). cbn in H. discriminate.
Qed.

(** C5.  Two invocations of a wrapped operation with the same arguments
    at the same library state give the same result and leave the same
    library state, whatever the machine looks like otherwise (regions
    open in the caller, calls made before).  In particular a second
    invocation that follows a first one which left the library state as
    it was returns what the first returned. *)
Theorem repeated_invocation_same_result :
  forall (world : Type) (L : fitz world) (R : Type) (c : fz_call R)
         (m1 m2 : machine world),
    lib_state m1 = lib_state m2 ->
    fst (wrapper L c m1) = fst (wrapper L c m2) /\
    lib_state (snd (wrapper L c m1)) = lib_state (snd (wrapper L c m2)) /\
    (lib_state (snd (wrapper L c m1)) = lib_state m1 ->
     fst (wrapper L c (snd (wrapper L c m1))) = fst (wrapper L c m1)).
Proof.
  intros world L R c m1 m2 H.
  rewrite !wrapper_run; cbn [fst snd lib_state].
  rewrite H. repeat split.
  intros Hsame. rewrite Hsame. reflexivity.
Qed.

Lemma repeated_invocation_same_result_witness :
  lib_state (boot three_pages) =
  lib_state (mk_machine three_pages [ctx1]
               [log_entry (fz_load_outline ctx1 doc1)]) /\
  fst (wrapper sample_fitz (fz_count_pages ctx1 doc1) (boot three_pages)) =
  fst (wrapper sample_fitz (fz_count_pages ctx1 doc1)
         (mk_machine three_pages [ctx1]
            [log_entry (fz_load_outline ctx1 doc1)])).
Proof.
  split; [reflexivity|].
  refine (proj1 (repeated_invocation_same_result sample_world sample_fitz _
                   (fz_count_pages ctx1 doc1) (boot three_pages)
                   (mk_machine three_pages [ctx1]
                      [log_entry (fz_load_outline ctx1 doc1)]) _)).
  reflexivity.
Defined.

(** C6.  The wrapper changes nothing but what the one library call
    changes: after the call the library state is the state the library
    call left, the region stack is the caller's again, and the call log
    has grown by this one call.  This holds on the success path and on
    the failure path alike; the local [ret] does not outlive the call. *)
Theorem wrapper_frame :
  forall (world : Type) (L : fitz world) (R : Type) (c : fz_call R)
         (m : machine world),
    lib_state (snd (wrapper L c m)) = snd (L R c (lib_state m)) /\
    regions (snd (wrapper L c m)) = regions m /\
    calls (snd (wrapper L c m)) = calls m ++ [log_entry c].
Proof.
  intros world L R c m. rewrite wrapper_run. repeat split.
Qed.

(** C7.  A run in which the library call succeeds with a value equal to
    the operation's sentinel and a run in which the call raises return
    the same value: the return value alone does not tell them apart. *)
Theorem sentinel_success_indistinguishable :
  forall (world : Type) (L : fitz world) (R : Type) (c : fz_call R)
         (m1 m2 : machine world) (w1 w2 : world) (e : fz_error),
    L R c (lib_state m1) = (Returned (designated_sentinel c), w1) ->
    L R c (lib_state m2) = (Raised e, w2) ->
    fst (wrapper L c m1) = fst (wrapper L c m2).
Proof.
  intros world L R c m1 m2 w1 w2 e Hok Hraised.
  rewrite (wrapper_returned L c m1 _ _ Hok).
  rewrite (wrapper_raised L c m2 _ _ Hraised).
  reflexivity.
Qed.

Lemma sentinel_success_indistinguishable_witness :
  sample_fitz _ (fz_load_outline ctx1 doc1) (lib_state (boot three_pages)) =
    (Returned NULL, three_pages) /\
  sample_fitz _ (fz_load_outline ctx1 doc1) (lib_state (boot unreadable)) =
    (Raised err_syntax, unreadable) /\
  fst (wrapper sample_fitz (fz_load_outline ctx1 doc1) (boot three_pages)) =
  fst (wrapper sample_fitz (fz_load_outline ctx1 doc1) (boot unreadable)).
Proof.
  split; [reflexivity|]. split; [reflexivity|].
  apply (sentinel_success_indistinguishable sample_world sample_fitz _
           (fz_load_outline ctx1 doc1) (boot three_pages) (boot unreadable)
           three_pages unreadable err_syntax).
  - reflexivity.
  - reflexivity.
Defined.

(** C8.  Two failing runs of an operation with the same arguments return
    the same value, the operation's sentinel, whatever the code and the
    message of the two exceptions: the return value carries nothing of
    the exception. *)
Theorem failure_value_independent_of_exception :
  forall (world : Type) (L : fitz world) (R : Type) (c : fz_call R)
         (m1 m2 : machine world) (w1 w2 : world) (e1 e2 : fz_error),
    L R c (lib_state m1) = (Raised e1, w1) ->
    L R c (lib_state m2) = (Raised e2, w2) ->
    fst (wrapper L c m1) = fst (wrapper L c m2) /\
    fst (wrapper L c m1) = Returned (Some (designated_sentinel c)).
Proof.
  intros world L R c m1 m2 w1 w2 e1 e2 H1 H2.
  rewrite (wrapper_raised L c m1 _ _ H1).
  rewrite (wrapper_raised L c m2 _ _ H2).
  split; reflexivity.
Qed.

Lemma failure_value_independent_of_exception_witness :
  sample_fitz _ (fz_load_page ctx1 doc1 9) (lib_state (boot three_pages)) =
    (Raised err_no_page, three_pages) /\
  sample_fitz _ (fz_load_page ctx1 doc1 9) (lib_state (boot unreadable)) =
    (Raised err_syntax, unreadable) /\
  err_no_page <> err_syntax /\
  fst (wrapper sample_fitz (fz_load_page ctx1 doc1 9) (boot three_pages)) =
  fst (wrapper sample_fitz (fz_load_page ctx1 doc1 9) (boot unreadable)).
Proof.
  split; [reflexivity|]. split; [reflexivity|]. split; [discriminate|].
  refine (proj1 (failure_value_independent_of_exception sample_world
                   sample_fitz _ (fz_load_page ctx1 doc1 9)
                   (boot three_pages) (boot unreadable)
                   three_pages unreadable err_no_page err_syntax _ _)).
  - reflexivity.
  - reflexivity.
Defined.

(** C9.  No wrapper looks at its arguments.  For all arguments, null
    handles and negative page numbers included, and on every machine,
    each [mp_] function runs the library function it is named after
    exactly once, on its own arguments in its own order: what it returns
    is made of the outcome of that call at the library state it was
    entered in, the library state it leaves is the one that call left,
    and the call log has grown by exactly that call.  No condition on the
    arguments is needed. *)
Theorem arguments_forwarded_verbatim :
  forall (world : Type) (L : fitz world) (m : machine world),
    (forall ctx path,
        mp_open_document L ctx path m =
          (Returned
             (Some (value_or NULL
                      (fst (L _ (fz_open_document ctx path) (lib_state m))))),
           mk_machine
             (snd (L _ (fz_open_document ctx path) (lib_state m)))
             (regions m)
             (calls m ++ [log_entry (fz_open_document ctx path)]))) /\
    (forall ctx kind stream,
        mp_open_document_with_stream L ctx kind stream m =
          (Returned
             (Some (value_or NULL
                      (fst (L _ (fz_open_document_with_stream ctx kind stream)
                              (lib_state m))))),
           mk_machine
             (snd (L _ (fz_open_document_with_stream ctx kind stream)
                     (lib_state m)))
             (regions m)
             (calls m ++
                [log_entry (fz_open_document_with_stream ctx kind stream)]))) /\
    (forall ctx doc pageno,
        mp_load_page L ctx doc pageno m =
          (Returned
             (Some (value_or NULL
                      (fst (L _ (fz_load_page ctx doc pageno) (lib_state m))))),
           mk_machine
             (snd (L _ (fz_load_page ctx doc pageno) (lib_state m)))
             (regions m)
             (calls m ++ [log_entry (fz_load_page ctx doc pageno)]))) /\
    (forall ctx doc,
        mp_load_outline L ctx doc m =
          (Returned
             (Some (value_or NULL
                      (fst (L _ (fz_load_outline ctx doc) (lib_state m))))),
           mk_machine
             (snd (L _ (fz_load_outline ctx doc) (lib_state m)))
             (regions m)
             (calls m ++ [log_entry (fz_load_outline ctx doc)]))) /\
    (forall ctx doc,
        mp_count_pages L ctx doc m =
          (Returned
             (Some (value_or (-1)
                      (fst (L _ (fz_count_pages ctx doc) (lib_state m))))),
           mk_machine
             (snd (L _ (fz_count_pages ctx doc) (lib_state m)))
             (regions m)
             (calls m ++ [log_entry (fz_count_pages ctx doc)]))) /\
    (forall ctx page options,
        mp_new_stext_page_from_page L ctx page options m =
          (Returned
             (Some (value_or NULL
                      (fst (L _ (fz_new_stext_page_from_page ctx page options)
                              (lib_state m))))),
           mk_machine
             (snd (L _ (fz_new_stext_page_from_page ctx page options)
                     (lib_state m)))
             (regions m)
             (calls m ++
                [log_entry (fz_new_stext_page_from_page ctx page options)]))).
Proof.
  intros world L m.
  repeat split; intros;
    unfold mp_open_document, mp_open_document_with_stream, mp_load_page,
      mp_load_outline, mp_count_pages, mp_new_stext_page_from_page;
    apply WRAP_run.
Qed.

(** The same at null and negative arguments, on the sample library: the
    library is run on them and its answer is what comes back. *)
Example run_count_null_document :
  mp_count_pages sample_fitz ctx1 NULL (boot three_pages) =
    (Returned (Some 0),
     mk_machine three_pages [] [log_entry (fz_count_pages ctx1 NULL)]).
Proof. reflexivity. Qed.

Example run_open_stream_null_kind :
  mp_open_document_with_stream sample_fitz ctx1 NULL (Addr 2)
    (boot three_pages) =
    (Returned (Some (Addr 1)),
     mk_machine (mk_sample_world 3 false 1) []
       [log_entry (fz_open_document_with_stream ctx1 NULL (Addr 2))]).
Proof. reflexivity. Qed.

(** C10.  Every wrapper is total in the outcome of the library call: on
    every path it returns, and [ret] holds a determinate value when it is
    returned, the library's value after a normal completion and the
    sentinel after an exception. *)
Theorem result_always_assigned :
  forall (world : Type) (L : fitz world) (R : Type) (c : fz_call R)
         (m : machine world),
    exists v : R,
      fst (wrapper L c m) = Returned (Some v) /\
      ((exists w, L R c (lib_state m) = (Returned v, w)) \/
       (exists e w, L R c (lib_state m) = (Raised e, w) /\
                    v = designated_sentinel c)).
Proof.
  intros world L R c m.
  rewrite wrapper_run.
  destruct (L R c (lib_state m)) as [[v | e] w]; cbn [fst value_or].
  - exists v. split; [reflexivity|]. left. exists w. reflexivity.
  - exists (designated_sentinel c). split; [reflexivity|].
    right. exists e, w. split; reflexivity.
Qed.

(** The statement-level view of the same fact: the frame of a wrapper
    body holds a value after the [fz_try]/[fz_catch] statement, although
    it held none before. *)
Lemma ret_assigned_after_try {world : Type} (L : fitz world) {R : Type}
    (fv : R) (ctx : ptr t_fz_context) (c : fz_call R) (m : machine world) :
  exists v : R,
    fst (fst (fz_try_catch ctx (assign_ret (perform L c))
                (assign_ret (const fv)) (mk_frame None) m)) = Fallthrough /\
    ret (snd (fst (fz_try_catch ctx (assign_ret (perform L c))
                     (assign_ret (const fv)) (mk_frame None) m))) = Some v.
Proof.
  unfold fz_try_catch, assign_ret, perform, const; cbn.
  destruct (L R c (lib_state m)) as [[v | e] w]; cbn;
    eexists; split; reflexivity.
Qed.

(** ** Further properties *)

(** X1.  A return value other than the operation's sentinel is genuine:
    when a wrapper returns [v] and [v] is not the sentinel, the library
    call completed normally and returned this very [v]; no exception was
    raised. *)
Theorem non_sentinel_result_is_genuine :
  forall (world : Type) (L : fitz world) (R : Type) (c : fz_call R)
         (m : machine world) (v : R),
    fst (wrapper L c m) = Returned (Some v) ->
    v <> designated_sentinel c ->
    (exists w, L R c (lib_state m) = (Returned v, w)) /\
    (forall e w, L R c (lib_state m) <> (Raised e, w)).
Proof.
  intros world L R c m v Hrun Hv.
  rewrite wrapper_run in Hrun; cbn [fst] in Hrun.
  destruct (L R c (lib_state m)) as [[v' | e'] w']; cbn [fst value_or] in Hrun;
    injection Hrun as Hrun.
  - subst v'. split.
    + exists w'. reflexivity.
    + intros e w. discriminate.
  - exfalso. apply Hv. symmetry. exact Hrun.
Qed.

Lemma non_sentinel_result_is_genuine_witness :
  fst (wrapper sample_fitz (fz_count_pages ctx1 doc1) (boot three_pages)) =
    Returned (Some 3) /\
  3 <> designated_sentinel (fz_count_pages ctx1 doc1) /\
  exists w,
    sample_fitz _ (fz_count_pages ctx1 doc1) (lib_state (boot three_pages)) =
      (Returned 3, w).
Proof.
  split; [reflexivity|]. split; [discriminate|].
  refine (proj1 (non_sentinel_result_is_genuine sample_world sample_fitz _
                   (fz_count_pages ctx1 doc1) (boot three_pages) 3 _ _)).
  - reflexivity.
  - discriminate.
Defined.

(** X2.  For each of the six operations the sentinel is returned in two
    cases and no other: the library call raised, or the library call
    itself returned the sentinel. *)
Theorem sentinel_result_iff :
  forall (world : Type) (L : fitz world) (R : Type) (c : fz_call R)
         (m : machine world),
    fst (wrapper L c m) = Returned (Some (designated_sentinel c)) <->
    (exists e w, L R c (lib_state m) = (Raised e, w)) \/
    (exists w, L R c (lib_state m) = (Returned (designated_sentinel c), w)).
Proof.
  intros world L R c m.
  rewrite wrapper_run; cbn [fst].
  destruct (L R c (lib_state m)) as [[v | e] w]; cbn [fst value_or]; split.
  - intros Heq. injection Heq as ->. right. exists w. reflexivity.
  - intros [(e & w' & H) | (w' & H)]; [discriminate|].
    injection H as -> _. reflexivity.
  - intros _. left. exists e, w. reflexivity.
  - intros _. reflexivity.
Qed.

Lemma sentinel_result_iff_witness :
  (exists e w,
      sample_fitz _ (fz_open_document ctx1 NULL)
        (lib_state (boot three_pages)) = (Raised e, w)) /\
  fst (wrapper sample_fitz (fz_open_document ctx1 NULL) (boot three_pages)) =
    Returned (Some NULL).
Proof.
  assert (Hraised : exists e w,
             sample_fitz _ (fz_open_document ctx1 NULL)
               (lib_state (boot three_pages)) = (Raised e, w)).
  { exists err_cannot_open, three_pages. reflexivity. }
  split; [exact Hraised|].
  apply (proj2 (sentinel_result_iff sample_world sample_fitz _
                  (fz_open_document ctx1 NULL) (boot three_pages))).
  left. exact Hraised.
Defined.

(** X3.  Wrapper calls compose.  Whatever calls a caller makes through
    the wrappers, in whatever order and however many of them fail, the
    caller is never unwound; afterwards the library is in the state the
    same calls made directly would have left, the region stack is what it
    was, and the library has seen exactly these calls, once each and in
    the caller's order. *)
Theorem run_calls_never_unwinds :
  forall (world : Type) (L : fitz world) (cs : list logged_call)
         (m : machine world),
    run_calls L cs m =
      (Returned tt,
       mk_machine (lib_after L cs (lib_state m)) (regions m) (calls m ++ cs)).
Proof.
  intros world L cs. induction cs as [| [R c] cs IH]; intros m.
  - cbn. rewrite app_nil_r. destruct m; reflexivity.
  - cbn [run_calls lib_after]. rewrite wrapper_run. rewrite IH.
    cbn [lib_state regions calls].
    rewrite <- app_assoc. reflexivity.
Qed.

Example run_calls_after_failed_open :
  run_calls sample_fitz
    [log_entry (fz_open_document ctx1 NULL);
     log_entry (fz_count_pages ctx1 NULL);
     log_entry (fz_load_page ctx1 NULL (-1))]
    (boot three_pages) =
  (Returned tt,
   mk_machine three_pages []
     [log_entry (fz_open_document ctx1 NULL);
      log_entry (fz_count_pages ctx1 NULL);
      log_entry (fz_load_page ctx1 NULL (-1))]).
Proof. reflexivity. Qed.
